(** * serverBrowser.py: the client of the Chivalry 2 server-browser backend

    A shallow embedding of [src/serverBrowser.py].  Every operation of the
    module is one synchronous HTTP round trip made through the [requests]
    library, followed by the decoding of the answer or by the raising of an
    exception.  The embedding keeps

    - the values the code handles after JSON decoding ([json]);
    - the exceptions a call can end with ([exn], [outcome]);
    - the effects: the log of the [requests.*] calls made, and the store of
      the list objects the caller shares with [registerServer] ([state], [M]);
    - the seven functions of the module, under their own names. *)

From Stdlib Require Import ZArith Ascii String.
From Corelib Require Import SpecFloat.
From stdpp Require Import gmap strings list pretty.

Set Warnings "-register-all".

Open Scope string_scope.
Open Scope Z_scope.

(** ** Python values after JSON decoding *)

(** A Python [float] is an IEEE-754 binary64 number. *)
Definition float := spec_float.

Definition float_prec : Z := 53.
Definition float_emax : Z := 1024.

(** What [json.loads] builds: [None], [bool], [int], [float], [str], [list]
    and [dict].  A [dict] keeps its insertion order; its keys are distinct. *)
Inductive json : Type :=
| JNull
| JBool (b : bool)
| JInt (n : Z)
| JFloat (f : float)
| JStr (s : string)
| JArr (l : list json)
| JObj (m : list (string * json)).

(** [d[k]] on a dict given by its items. *)
Fixpoint dict_get (k : string) (m : list (string * json)) : option json :=
  match m with
  | [] => None
  | (k', v) :: m' => if String.eqb k k' then Some v else dict_get k m'
  end.

Definition dict_keys (m : list (string * json)) : list string := map fst m.

(** A dict as Python can hold it: no key twice. *)
Definition dict_wf (m : list (string * json)) : Prop := NoDup (dict_keys m).

(** ** Exceptions *)

Inductive exn : Type :=
| RuntimeError (msg : string)
| KeyError (key : string)
| TypeError
| ValueError
| OverflowError
| JSONDecodeError
| InvalidHeader.

Inductive outcome (A : Type) : Type :=
| Returned (a : A)
| Raised (e : exn).
Arguments Returned {A} a.
Arguments Raised {A} e.

Definition outcome_bind {A B} (o : outcome A) (k : A -> outcome B) : outcome B :=
  match o with
  | Returned a => k a
  | Raised e => Raised e
  end.

(** ** The [requests] library, as far as the module uses it *)

Inductive Method : Type := GET | POST | PUT | DELETE.

(** The arguments of one [requests.get/post/put/delete] call.  [req_headers]
    and [req_json] are the keyword arguments [headers=] and [json=] ([None]
    when the call does not pass them); [req_auth] is the keyword [auth=]. *)
Record Request : Type := mkRequest {
  req_method : Method;
  req_url : string;
  req_headers : option (list (string * string));
  req_json : option json;
  req_auth : option (string * string)
}.

(** The [requests.Response] attributes the module reads: [status_code], and
    what [json()] gives for the body ([None] when the body does not decode,
    in which case [json()] raises). *)
Record Response : Type := mkResponse {
  status_code : Z;
  json_result : option json
}.

(** [Response.ok]: false exactly when [raise_for_status] would raise, that is
    for the 4xx and 5xx codes. *)
Definition ok (response : Response) : bool :=
  negb ((400 <=? status_code response) && (status_code response <? 600)).

(** ** State and effects *)

(** A reference to a Python list object. *)
Definition loc := positive.

(** [heap] holds the list objects reachable by the caller ([mods] and the
    default of [mods]); [sent] is the log of the [requests.*] calls made so
    far, each with its arguments. *)
Record state : Type := mkState {
  heap : gmap loc (list json);
  sent : list Request
}.

Definition M (A : Type) : Type := state -> outcome A * state.

Definition ret {A} (a : A) : M A := fun st => (Returned a, st).

Definition raise {A} (e : exn) : M A := fun st => (Raised e, st).

Definition bind {A B} (c : M A) (k : A -> M B) : M B :=
  fun st =>
    match c st with
    | (Returned a, st') => k a st'
    | (Raised e, st') => (Raised e, st')
    end.

Definition lift {A} (o : outcome A) : M A := fun st => (o, st).

Notation "x <- c ;; k" := (bind c (fun x => k))
  (at level 100, c at next level, right associativity).

(** ** Objects handed to [requests]

    The value of a [json=] argument before it is encoded: a dict literal of
    the module, whose entries are plain values or, for [mods], the caller's
    list object itself (a reference, not a copy). *)
Inductive pyval : Type :=
| PVal (v : json)
| PList (l : loc)
| PDict (items : list (string * pyval)).

(** Reading a list object.  Python references never dangle; a location that
    the store does not hold reads as the empty list. *)
Definition deref (h : gmap loc (list json)) (l : loc) : list json :=
  default [] (h !! l).

(** [json.dumps] as [requests] applies it when the request is prepared: the
    list objects are read in the store of that moment. *)
Fixpoint encode (h : gmap loc (list json)) (v : pyval) : json :=
  match v with
  | PVal j => j
  | PList l => JArr (deref h l)
  | PDict items => JObj (map (fun kv => (fst kv, encode h (snd kv))) items)
  end.

(** ** Built-in conversions *)

(** The line feed, Python's ["\n"]. *)
Definition nl : string := String "010"%char EmptyString.

(** [float(n)] for an [int]: the nearest binary64, ties to even;
    [OverflowError] when that is not finite. *)
Definition float_of_int (n : Z) : outcome float :=
  match binary_normalize float_prec float_emax n 0 false with
  | S754_infinity _ => Raised OverflowError
  | f => Returned f
  end.

Section Client.

(** What the Python runtime supplies: [float(s)] for a [str] ([None] when
    it raises [ValueError]), [repr] of a [float] and [repr] of a [str]. *)
Variable float_of_str : string -> option float.
Variable float_repr : float -> string.
Variable str_repr : string -> string.

(** The backend the requests reach.  The embedding covers the calls that
    get a response; a transport that fails raises inside [requests], before
    any line of the module after the call runs. *)
Variable backend : Request -> Response.

(** [float(v)]. *)
Definition py_float (v : json) : outcome float :=
  match v with
  | JFloat f => Returned f
  | JInt n => float_of_int n
  | JBool b => float_of_int (if b then 1 else 0)
  | JStr s =>
      match float_of_str s with
      | Some f => Returned f
      | None => Raised ValueError
      end
  | JNull | JArr _ | JObj _ => Raised TypeError
  end.

Definition join (sep : string) (l : list string) : string :=
  match l with
  | [] => ""
  | x :: l' => fold_left (fun acc y => acc +:+ sep +:+ y) l' x
  end.

(** [repr(v)]. *)
Fixpoint py_repr (v : json) : string :=
  match v with
  | JNull => "None"
  | JBool b => if b then "True" else "False"
  | JInt n => pretty n
  | JFloat f => float_repr f
  | JStr s => str_repr s
  | JArr l => "[" +:+ join ", " (map py_repr l) +:+ "]"
  | JObj m =>
      "{" +:+ join ", " (map (fun kv => str_repr (fst kv) +:+ ": " +:+ py_repr (snd kv)) m) +:+ "}"
  end.

(** [str(v)], which is what ["{}".format(v)] inserts. *)
Definition py_str (v : json) : string :=
  match v with
  | JStr s => s
  | _ => py_repr v
  end.

(** [v[k]] for a string [k]. *)
Definition py_getitem (v : json) (k : string) : outcome json :=
  match v with
  | JObj m =>
      match dict_get k m with
      | Some x => Returned x
      | None => Raised (KeyError k)
      end
  | _ => Raised TypeError
  end.

(** [response.json()].  Whatever [json()] raises is rendered by the one
    constructor [JSONDecodeError]; a theorem that names it speaks of a body
    that is not JSON text. *)
Definition Response_json (response : Response) : M json :=
  match json_result response with
  | Some v => ret v
  | None => raise JSONDecodeError
  end.

(** [requests.request(method, url, headers=..., json=...)]: the body is
    encoded, the call is logged and the backend's response comes back.  The
    store is read, never written.  This is a call whose arguments
    [requests] accepts and for which it hands back the final response: the
    check of the header values is [checked_call] below, and the redirects
    that [requests] follows and the credentials it adds on its own account
    are not modelled. *)
Definition requests_request (method : Method) (url : string)
    (headers : option (list (string * string))) (body : option pyval) : M Response :=
  fun st =>
    let req := mkRequest method url headers (encode (heap st) <$> body) None in
    (Returned (backend req), mkState (heap st) (sent st ++ [req])).

Definition requests_get := requests_request GET.
Definition requests_post := requests_request POST.
Definition requests_put := requests_request PUT.
Definition requests_delete := requests_request DELETE.

(** ** The module *)

Definition __buildError (errorCode : Z) (errResponse : json) : outcome string :=
  outcome_bind (py_getitem errResponse "message") (fun message =>
  outcome_bind (py_getitem errResponse "context") (fun context =>
  outcome_bind (py_getitem errResponse "status") (fun status =>
  Returned ("Server could not be updated: error " +:+ pretty errorCode +:+ "." +:+ nl
            +:+ "Message: " +:+ py_str message +:+ nl
            +:+ "Context: " +:+ py_str context +:+ nl
            +:+ "Status: " +:+ py_str status +:+ nl)))).

Definition __checkResponse {A} (response : Response) : M A :=
  match json_result response with
  | None =>
      raise (RuntimeError ("Server error (could not parse response body): "
                           +:+ pretty (status_code response)))
  | Some parsed =>
      if negb ((500 <=? status_code response) && (status_code response <? 600))
      then msg <- lift (__buildError (status_code response) parsed) ;;
           raise (RuntimeError msg)
      else raise (RuntimeError ("Server error: " +:+ pretty (status_code response)))
  end.

(** The list object that the default [mods = []] denotes.  It is built
    once, when the [def] is executed, and every call that omits [mods]
    receives this same object. *)
Definition registerServer_mods_default : loc := 1%positive.

Definition registerServer (address : string) (gamePort pingPort queryPort : Z)
    (name description current_map : string) (player_count max_players : Z)
    (mods : loc) : M (json * json * float) :=
  let serverObj :=
    PDict [
      ("ports", PDict [
        ("game", PVal (JInt gamePort));
        ("ping", PVal (JInt pingPort));
        ("a2s", PVal (JInt queryPort))
      ]);
      ("name", PVal (JStr name));
      ("description", PVal (JStr description));
      ("current_map", PVal (JStr current_map));
      ("player_count", PVal (JInt player_count));
      ("max_players", PVal (JInt max_players));
      ("mods", PList mods)
    ] in
  response <- requests_post (address +:+ "/api/v1/servers") None (Some serverObj) ;;
  if negb (ok response) then
    __checkResponse response
  else
    jsResponse <- Response_json response ;;
    server <- lift (py_getitem jsResponse "server") ;;
    unique_id <- lift (py_getitem server "unique_id") ;;
    key <- lift (py_getitem jsResponse "key") ;;
    refresh_before <- lift (py_getitem jsResponse "refresh_before") ;;
    refresh <- lift (py_float refresh_before) ;;
    ret (unique_id, key, refresh).

(** [registerServer(address)], every other parameter at its default. *)
Definition registerServer_defaults (address : string) : M (json * json * float) :=
  registerServer address 7777 3075 7071 "Chivalry 2 Server" "No description"
    "Unknown" (-1) (-1) registerServer_mods_default.

Definition updateServer (address unique_id key : string)
    (player_count max_players : Z) (current_map : string) : M unit :=
  let updateBody :=
    PDict [
      ("player_count", PVal (JInt player_count));
      ("max_players", PVal (JInt max_players));
      ("current_map", PVal (JStr current_map))
    ] in
  let updateHeaders := [("x-chiv2-server-browser-key", key)] in
  response <- requests_put (address +:+ "/api/v1/servers/" +:+ unique_id)
                (Some updateHeaders) (Some updateBody) ;;
  if negb (ok response) then
    __checkResponse response
  else
    ret tt.

Definition delete (address unique_id key : string) : M unit :=
  let updateHeaders := [("x-chiv2-server-browser-key", key)] in
  response <- requests_delete (address +:+ "/api/v1/servers/" +:+ unique_id)
                (Some updateHeaders) (Some (PDict [])) ;;
  if negb (ok response) then
    __checkResponse response
  else
    ret tt.

Definition heartbeat (address unique_id key : string) (port : Z) : M float :=
  let heartbeatHeaders := [("x-chiv2-server-browser-key", key)] in
  response <- requests_post (address +:+ "/api/v1/servers/" +:+ unique_id +:+ "/heartbeat")
                (Some heartbeatHeaders) None ;;
  if negb (ok response) then
    __checkResponse response
  else
    parsed <- Response_json response ;;
    refresh_before <- lift (py_getitem parsed "refresh_before") ;;
    lift (py_float refresh_before).

(** The call [heartbeat(address, unique_id, key, *rest)].  Python binds the
    positional arguments to the four parameters of the [def], none of which
    has a default, and raises [TypeError] before the body runs unless there
    are exactly four. *)
Definition heartbeat_call (address unique_id key : string) (rest : list Z) : M float :=
  match rest with
  | [port] => heartbeat address unique_id key port
  | _ => raise TypeError
  end.

Definition getServerList (address : string) : M json :=
  response <- requests_get (address +:+ "/api/v1/servers") None None ;;
  if negb (ok response) then
    __checkResponse response
  else
    parsed <- Response_json response ;;
    lift (py_getitem parsed "servers").

(** ** The five operations, as one family

    A [call] is one use of the module by its caller; [perform] runs it.
    [request_of] is the request that section 6 of the specification lists
    for the call. *)
Inductive call : Type :=
| Register (address : string) (gamePort pingPort queryPort : Z)
    (name description current_map : string) (player_count max_players : Z)
    (mods : loc)
| Update (address unique_id key : string) (player_count max_players : Z)
    (current_map : string)
| Delete (address unique_id key : string)
| Heartbeat (address unique_id key : string) (port : Z)
| GetServerList (address : string).

Inductive result : Type :=
| Registration (r : json * json * float)
| Nothing
| RefreshBefore (f : float)
| Servers (v : json).

Definition perform (c : call) : M result :=
  match c with
  | Register address gamePort pingPort queryPort name description current_map
      player_count max_players mods =>
      r <- registerServer address gamePort pingPort queryPort name description
             current_map player_count max_players mods ;;
      ret (Registration r)
  | Update address unique_id key player_count max_players current_map =>
      _ <- updateServer address unique_id key player_count max_players current_map ;;
      ret Nothing
  | Delete address unique_id key =>
      _ <- delete address unique_id key ;; ret Nothing
  | Heartbeat address unique_id key port =>
      f <- heartbeat address unique_id key port ;; ret (RefreshBefore f)
  | GetServerList address =>
      v <- getServerList address ;; ret (Servers v)
  end.

Definition key_header (key : string) : option (list (string * string)) :=
  Some [("x-chiv2-server-browser-key", key)].

Definition request_of (c : call) (h : gmap loc (list json)) : Request :=
  match c with
  | Register address gamePort pingPort queryPort name description current_map
      player_count max_players mods =>
      mkRequest POST (address +:+ "/api/v1/servers") None
        (Some (JObj [
           ("ports", JObj [("game", JInt gamePort); ("ping", JInt pingPort);
                           ("a2s", JInt queryPort)]);
           ("name", JStr name);
           ("description", JStr description);
           ("current_map", JStr current_map);
           ("player_count", JInt player_count);
           ("max_players", JInt max_players);
           ("mods", JArr (deref h mods))]))
        None
  | Update address unique_id key player_count max_players current_map =>
      mkRequest PUT (address +:+ "/api/v1/servers/" +:+ unique_id) (key_header key)
        (Some (JObj [("player_count", JInt player_count);
                     ("max_players", JInt max_players);
                     ("current_map", JStr current_map)]))
        None
  | Delete address unique_id key =>
      mkRequest DELETE (address +:+ "/api/v1/servers/" +:+ unique_id) (key_header key)
        (Some (JObj [])) None
  | Heartbeat address unique_id key port =>
      mkRequest POST (address +:+ "/api/v1/servers/" +:+ unique_id +:+ "/heartbeat")
        (key_header key) None None
  | GetServerList address =>
      mkRequest GET (address +:+ "/api/v1/servers") None None None
  end.

(** The state a call leaves behind: the store as it was, one more request
    in the log. *)
Definition after_request (c : call) (st : state) : state :=
  mkState (heap st) (sent st ++ [request_of c (heap st)]).

End Client.

(** The state right after the module is imported: the default of [mods]
    exists and is empty, nothing has been sent. *)
Definition module_state : state :=
  mkState {[ registerServer_mods_default := [] ]} [].

(** [contains s sub]: [sub] occurs in [s]. *)
Definition contains (s sub : string) : Prop :=
  exists pre post, s = pre +:+ sub +:+ post.

(** A computation that touches neither the store nor the log. *)
Definition stateless {A} (c : M A) : Prop := forall st, snd (c st) = st.

(** The two messages of [__checkResponse] that carry the status code only,
    and the detailed one of [__buildError]. *)
Definition unparseable_message (code : Z) : string :=
  "Server error (could not parse response body): " +:+ pretty code.

Definition server_error_message (code : Z) : string :=
  "Server error: " +:+ pretty code.

Definition detailed_message (code : Z) (message context status : string) : string :=
  "Server could not be updated: error " +:+ pretty code +:+ "." +:+ nl
  +:+ "Message: " +:+ message +:+ nl
  +:+ "Context: " +:+ context +:+ nl
  +:+ "Status: " +:+ status +:+ nl.

(** ** Backends and bodies of the specification's examples *)

(** A mocked backend: every request gets the same answer. *)
Definition answers (code : Z) (body : option json) : Request -> Response :=
  fun _ => mkResponse code body.

(** The error body of the 404 example. *)
Definition not_found_body : json :=
  JObj [("message", JStr "not found"); ("context", JStr "server");
        ("status", JStr "error")].

(** The float 123.5, that is 247/2. *)
Definition float_123_5 : float :=
  binary_normalize float_prec float_emax 247 (-1) false.

(** The body echoed to [registerServer] in the round-trip example. *)
Definition registration_body : json :=
  JObj [("server", JObj [("unique_id", JStr "abc")]); ("key", JStr "k");
        ("refresh_before", JFloat float_123_5)].

(** The body of the [getServerList] example. *)
Definition server_list_body : json :=
  JObj [("servers", JArr [JObj [("unique_id", JStr "x")]])].

(** A 2xx body for [heartbeat]. *)
Definition refresh_body (rb : json) : json := JObj [("refresh_before", rb)].

(** A runtime that closes the examples.  The examples convert no string to
    a float and format string fields only, so none of the three functions is
    consulted on them. *)
Definition example_float_of_str : string -> option float := fun _ => None.
Definition example_float_repr : float -> string := fun _ => "nan".
Definition example_str_repr : string -> string := fun s => "'" +:+ s +:+ "'".

(** The exceptions that indexing the decoded error body can raise in
    [__buildError]. *)
Definition build_error_exn (e : exn) : Prop :=
  e = TypeError \/ e = KeyError "message" \/ e = KeyError "context" \/
  e = KeyError "status".

(** The calls that decode the body of a successful response. *)
Definition decodes_body (c : call) : bool :=
  match c with
  | Register _ _ _ _ _ _ _ _ _ _ | Heartbeat _ _ _ _ | GetServerList _ => true
  | Update _ _ _ _ _ _ | Delete _ _ _ => false
  end.

(** [float_denotes f n]: the float [f] is the integer [n], with nothing
    rounded away. *)
Definition float_denotes (f : float) (n : Z) : Prop :=
  match f with
  | S754_zero _ => n = 0
  | S754_finite s m e =>
      s = (n <? 0) /\
      Z.pos m * 2 ^ Z.max e 0 = Z.abs n * 2 ^ Z.max (- e) 0
  | S754_infinity _ | S754_nan => False
  end.

(** ** What [requests] does with a header value before it sends

    [requests_request] is the call once [requests] has accepted its
    arguments.  Before that, [requests] matches every header value against
    the pattern [^\S[^\r\n]*$|^$] and raises [InvalidHeader] when it does
    not match; a value that passes is then refused by [http.client] with
    [ValueError] when it holds a line feed not followed by a space or a tab,
    or a carriage return not followed by a space, a tab or a line feed.  In
    both cases nothing is sent. *)








(** ** Basic facts *)

Lemma ok_true_iff (r : Response) :
  ok r = true <-> ~ (400 <= status_code r < 600).
Proof.
  unfold ok. rewrite negb_true_iff, andb_false_iff, Z.leb_gt, Z.ltb_ge. lia.
Qed.

Lemma ok_false_iff (r : Response) :
  ok r = false <-> 400 <= status_code r < 600.
Proof.
  unfold ok. rewrite negb_false_iff, andb_true_iff, Z.leb_le, Z.ltb_lt. lia.
Qed.

Lemma ok_2xx (r : Response) :
  200 <= status_code r < 300 -> ok r = true.
Proof. intros H. apply ok_true_iff. lia. Qed.

Lemma string_app_assoc (s1 s2 s3 : string) :
  s1 +:+ s2 +:+ s3 = (s1 +:+ s2) +:+ s3.
Proof.
  induction s1 as [|a s1 IH]; [reflexivity|].
  change (String a (s1 +:+ s2 +:+ s3) = String a ((s1 +:+ s2) +:+ s3)).
  by rewrite IH.
Qed.

Lemma string_app_nil_r (s : string) : s +:+ "" = s.
Proof.
  induction s as [|a s IH]; [reflexivity|].
  change (String a (s +:+ "") = String a s). by rewrite IH.
Qed.

Lemma contains_intro (pre sub post : string) : contains (pre +:+ sub +:+ post) sub.
Proof. by exists pre, post. Qed.

Lemma contains_prefix (pre s sub : string) : contains s sub -> contains (pre +:+ s) sub.
Proof.
  intros (p & q & ->). exists (pre +:+ p), q. by rewrite <- string_app_assoc.
Qed.

Lemma contains_end (pre sub : string) : contains (pre +:+ sub) sub.
Proof. exists pre, "". by rewrite string_app_nil_r. Qed.

(** ** Computations that touch neither the store nor the log *)

Lemma stateless_ret {A} (a : A) : stateless (ret a).
Proof. by intros st. Qed.

Lemma stateless_raise {A} (e : exn) : stateless (@raise A e).
Proof. by intros st. Qed.

Lemma stateless_lift {A} (o : outcome A) : stateless (lift o).
Proof. by intros st. Qed.

Lemma stateless_bind {A B} (c : M A) (k : A -> M B) :
  stateless c -> (forall a, stateless (k a)) -> stateless (bind c k).
Proof.
  intros Hc Hk st. unfold bind. specialize (Hc st).
  destruct (c st) as [[a|e] st']; simpl in *; subst; [apply Hk | done].
Qed.

Lemma stateless_if {A} (b : bool) (c1 c2 : M A) :
  stateless c1 -> stateless c2 -> stateless (if b then c1 else c2).
Proof. by destruct b. Qed.

Lemma stateless_Response_json (r : Response) : stateless (Response_json r).
Proof. unfold Response_json. destruct (json_result r); by intros st. Qed.

Create HintDb stateless.
#[local] Hint Resolve stateless_ret stateless_raise stateless_lift
  stateless_if stateless_Response_json : stateless.
#[local] Hint Extern 2 (stateless (bind _ _)) =>
  apply stateless_bind; [ | intros ? ] : stateless.

Section Properties.

Variable float_of_str : string -> option float.
Variable float_repr : float -> string.
Variable str_repr : string -> string.
Variable backend : Request -> Response.

#[local] Abbreviation checkResponse A := (@__checkResponse float_repr str_repr A).
#[local] Abbreviation run := (perform float_of_str float_repr str_repr backend).
#[local] Abbreviation str := (py_str float_repr str_repr).

Lemma checkResponse_unparseable {A} (r : Response) (st : state) :
  json_result r = None ->
  checkResponse A r st = (Raised (RuntimeError (unparseable_message (status_code r))), st).
Proof. intros H. unfold __checkResponse. by rewrite H. Qed.

Lemma checkResponse_5xx {A} (r : Response) (parsed : json) (st : state) :
  json_result r = Some parsed ->
  500 <= status_code r < 600 ->
  checkResponse A r st = (Raised (RuntimeError (server_error_message (status_code r))), st).
Proof.
  intros H Hc. unfold __checkResponse. rewrite H.
  assert ((500 <=? status_code r) && (status_code r <? 600) = true) as ->
    by (apply andb_true_iff; split; [apply Z.leb_le | apply Z.ltb_lt]; lia).
  done.
Qed.

Lemma checkResponse_detailed {A} (r : Response) (m : list (string * json))
    (message context status : json) (st : state) :
  json_result r = Some (JObj m) ->
  dict_get "message" m = Some message ->
  dict_get "context" m = Some context ->
  dict_get "status" m = Some status ->
  ~ (500 <= status_code r < 600) ->
  checkResponse A r st =
    (Raised (RuntimeError (detailed_message (status_code r)
                             (str message) (str context) (str status))), st).
Proof.
  intros H Hm Hc Hs Hn. unfold __checkResponse. rewrite H.
  assert ((500 <=? status_code r) && (status_code r <? 600) = false) as ->
    by (apply andb_false_iff; rewrite Z.leb_gt, Z.ltb_ge; lia).
  unfold __buildError, py_getitem, bind, lift; simpl.
  by rewrite Hm, Hc, Hs.
Qed.

Lemma checkResponse_raises {A} (r : Response) (st : state) :
  exists e, checkResponse A r st = (Raised e, st).
Proof.
  unfold __checkResponse, bind, lift, raise.
  destruct (json_result r) as [parsed|]; [|by eexists].
  destruct (negb _); [|by eexists].
  destruct (__buildError _ _ _ _); by eexists.
Qed.

Lemma checkResponse_bind {A B} (k : A -> M B) (r : Response) (st : state) :
  bind (checkResponse A r) k st = checkResponse B r st.
Proof.
  unfold __checkResponse, bind, lift, raise.
  destruct (json_result r) as [parsed|]; [|done].
  destruct (negb _); [|done].
  by destruct (__buildError _ _ _ _).
Qed.

Lemma stateless_checkResponse {A} (r : Response) : stateless (checkResponse A r).
Proof. intros st. by destruct (checkResponse_raises (A:=A) r st) as [e ->]. Qed.

#[local] Hint Resolve stateless_checkResponse : stateless.

(** ** One round trip per call *)

Lemma bind_assoc {A B C} (c : M A) (k1 : A -> M B) (k2 : B -> M C) (st : state) :
  bind (bind c k1) k2 st = bind c (fun a => bind (k1 a) k2) st.
Proof. unfold bind. by destruct (c st) as [[a|e] st']. Qed.

Lemma bind_request {A} (method : Method) (url : string)
    (headers : option (list (string * string))) (body : option pyval)
    (k : Response -> M A) (st : state) :
  bind (requests_request backend method url headers body) k st =
  let req := mkRequest method url headers (encode (heap st) <$> body) None in
  k (backend req) (mkState (heap st) (sent st ++ [req])).
Proof. reflexivity. Qed.

Lemma stateless_apply {A} (c : M A) (st : state) : stateless c -> snd (c st) = st.
Proof. intros H. apply H. Qed.

Ltac open_call c :=
  destruct c; unfold perform, registerServer, updateServer, delete, heartbeat,
    getServerList, requests_get, requests_post, requests_put, requests_delete;
  rewrite bind_assoc, bind_request; cbv beta zeta;
  cbn [fmap option_fmap option_map encode map fst snd].

Lemma perform_state (c : call) (st : state) :
  snd (run c st) = after_request c st.
Proof.
  open_call c; apply stateless_apply; auto 20 with stateless.
Qed.

Lemma perform_not_ok (c : call) (st : state) :
  ok (backend (request_of c (heap st))) = false ->
  run c st = checkResponse result (backend (request_of c (heap st))) (after_request c st).
Proof.
  intros Hok. open_call c; unfold request_of, key_header in Hok; rewrite Hok; simpl;
    apply checkResponse_bind.
Qed.

(** ** Messages carry the status code *)

Lemma unparseable_message_code (code : Z) :
  contains (unparseable_message code) (pretty code).
Proof. apply contains_end. Qed.

Lemma server_error_message_code (code : Z) :
  contains (server_error_message code) (pretty code).
Proof. apply contains_end. Qed.

Lemma detailed_message_parts (code : Z) (message context status : string) :
  let msg := detailed_message code message context status in
  contains msg (pretty code) /\ contains msg message /\
  contains msg context /\ contains msg status.
Proof.
  unfold detailed_message. repeat split.
  - apply contains_intro.
  - do 4 apply contains_prefix. apply contains_intro.
  - do 7 apply contains_prefix. apply contains_intro.
  - do 10 apply contains_prefix. apply contains_intro.
Qed.

(** ** Error handling *)

(** C1, as amended.  A response that [requests] reports as not ok has a
    status in [400, 600).  When its body decodes: with a status in
    [500, 600) the call raises [RuntimeError] with the generic message
    "Server error: <status>", whatever the body holds; with a status in
    [400, 500) and a body that is an object with the keys message, context
    and status, the call raises [RuntimeError] with the detailed message,
    in which the status code and the three fields occur. *)
Theorem error_message_by_status (c : call) (st : state) (r : Response) :
  backend (request_of c (heap st)) = r ->
  400 <= status_code r < 600 ->
  (forall parsed,
      json_result r = Some parsed ->
      500 <= status_code r ->
      fst (run c st) = Raised (RuntimeError (server_error_message (status_code r))) /\
      contains (server_error_message (status_code r)) (pretty (status_code r)))
  /\
  (forall m message context status,
      json_result r = Some (JObj m) ->
      dict_get "message" m = Some message ->
      dict_get "context" m = Some context ->
      dict_get "status" m = Some status ->
      status_code r < 500 ->
      let msg := detailed_message (status_code r) (str message) (str context) (str status) in
      fst (run c st) = Raised (RuntimeError msg) /\
      contains msg (pretty (status_code r)) /\ contains msg (str message) /\
      contains msg (str context) /\ contains msg (str status)).
Proof.
  intros Hr Hcode.
  assert (Hok : ok (backend (request_of c (heap st))) = false)
    by (rewrite Hr; by apply ok_false_iff).
  split.
  - intros parsed Hp H5. rewrite (perform_not_ok _ _ Hok), Hr.
    rewrite (checkResponse_5xx _ parsed) by (done || lia).
    split; [done | apply server_error_message_code].
  - intros m message context status Hp Hm Hc Hs H4 msg.
    rewrite (perform_not_ok _ _ Hok), Hr.
    rewrite (checkResponse_detailed _ m message context status) by (done || lia).
    split; [done | apply detailed_message_parts].
Qed.

(** C5, as amended.  When the response is not ok (status in [400, 600)) and
    its body does not decode as JSON, every call raises [RuntimeError] with
    the message "Server error (could not parse response body): <status>",
    which is made of the status code and of nothing else the backend sent. *)
Theorem unparseable_error (c : call) (st : state) (r : Response) :
  backend (request_of c (heap st)) = r ->
  400 <= status_code r < 600 ->
  json_result r = None ->
  fst (run c st) = Raised (RuntimeError (unparseable_message (status_code r))) /\
  contains (unparseable_message (status_code r)) (pretty (status_code r)).
Proof.
  intros Hr Hcode Hp.
  assert (Hok : ok (backend (request_of c (heap st))) = false)
    by (rewrite Hr; by apply ok_false_iff).
  rewrite (perform_not_ok _ _ Hok), Hr, checkResponse_unparseable by done.
  split; [done | apply unparseable_message_code].
Qed.

(** ** Successful calls *)

Ltac open_op :=
  unfold registerServer, updateServer, delete, heartbeat, getServerList,
    requests_get, requests_post, requests_put, requests_delete;
  rewrite bind_request; cbv beta zeta;
  cbn [fmap option_fmap option_map encode map fst snd].

Ltac step_outcome :=
  unfold Response_json, bind, ret, lift, raise, py_getitem; simpl.

(** C2.  On a 2xx response whose body is an object with
    [server.unique_id = u], [key = k] and [refresh_before = rb],
    [registerServer] returns the triple [(u, k, float(rb))], and raises what
    [float(rb)] raises when that conversion fails. *)
Theorem register_returns_triple (address : string) (gamePort pingPort queryPort : Z)
    (name description current_map : string) (player_count max_players : Z)
    (mods : loc) (st : state) (r : Response)
    (m srv : list (string * json)) (u k rb : json) :
  backend (request_of (Register address gamePort pingPort queryPort name description
                         current_map player_count max_players mods) (heap st)) = r ->
  200 <= status_code r < 300 ->
  json_result r = Some (JObj m) ->
  dict_get "server" m = Some (JObj srv) ->
  dict_get "unique_id" srv = Some u ->
  dict_get "key" m = Some k ->
  dict_get "refresh_before" m = Some rb ->
  fst (registerServer float_of_str float_repr str_repr backend address gamePort
         pingPort queryPort name description current_map player_count max_players
         mods st)
  = outcome_bind (py_float float_of_str rb) (fun f => Returned (u, k, f)).
Proof.
  intros Hr Hcode Hj Hsrv Hu Hk Hrb. unfold request_of in Hr.
  open_op. rewrite Hr, (ok_2xx r Hcode). step_outcome.
  rewrite Hj; simpl. rewrite Hsrv; simpl. rewrite Hu; simpl.
  rewrite Hk; simpl. rewrite Hrb; simpl.
  by destruct (py_float float_of_str rb).
Qed.

(** C8.  On a 2xx response whose body is an object with a servers key,
    [getServerList] returns the value under that key as it was decoded. *)
Theorem server_list_unmodified (address : string) (st : state) (r : Response)
    (m : list (string * json)) (servers : json) :
  backend (request_of (GetServerList address) (heap st)) = r ->
  200 <= status_code r < 300 ->
  json_result r = Some (JObj m) ->
  dict_get "servers" m = Some servers ->
  fst (getServerList float_repr str_repr backend address st) = Returned servers.
Proof.
  intros Hr Hcode Hj Hs. unfold request_of in Hr.
  open_op. rewrite Hr, (ok_2xx r Hcode). step_outcome.
  rewrite Hj; simpl. by rewrite Hs.
Qed.

(** C7, as amended.  [heartbeat] has four required parameters: address,
    unique_id, key and port.  It issues
    POST address/api/v1/servers/unique_id/heartbeat with the access-key
    header and no body, and on a 2xx response whose body is an object with
    [refresh_before = rb] it returns [float(rb)]: the nearest float of an
    integer value, and a fractional value itself. *)
Theorem heartbeat_contract (address unique_id key : string) (port : Z) (st : state) :
  let req := mkRequest POST (address +:+ "/api/v1/servers/" +:+ unique_id +:+ "/heartbeat")
               (Some [("x-chiv2-server-browser-key", key)]) None None in
  heartbeat_call float_of_str float_repr str_repr backend address unique_id key [port]
    = heartbeat float_of_str float_repr str_repr backend address unique_id key port /\
  snd (heartbeat float_of_str float_repr str_repr backend address unique_id key port st)
    = mkState (heap st) (sent st ++ [req]) /\
  (forall m rb,
      200 <= status_code (backend req) < 300 ->
      json_result (backend req) = Some (JObj m) ->
      dict_get "refresh_before" m = Some rb ->
      fst (heartbeat float_of_str float_repr str_repr backend address unique_id key port st)
        = py_float float_of_str rb) /\
  (forall n, py_float float_of_str (JInt n) = float_of_int n) /\
  (forall f, py_float float_of_str (JFloat f) = Returned f).
Proof.
  intros req. split; [reflexivity|]. split; [|split; [|split; reflexivity]].
  - open_op. apply stateless_apply; auto 20 with stateless.
  - intros m rb Hcode Hj Hrb. open_op. fold req.
    rewrite (ok_2xx _ Hcode). step_outcome.
    rewrite Hj; simpl. by rewrite Hrb.
Qed.

(** ** Requests *)

(** C3.  The body that [registerServer] hands to [requests.post] is an
    object with the keys ports, name, description, current_map,
    player_count, max_players and mods, each once and no other; its ports
    entry is an object with the keys game, ping and a2s and no other, bound
    to gamePort, pingPort and queryPort. *)
Theorem register_body_fields (address : string) (gamePort pingPort queryPort : Z)
    (name description current_map : string) (player_count max_players : Z)
    (mods : loc) (st : state) :
  exists body ports,
    sent (snd (registerServer float_of_str float_repr str_repr backend address
                 gamePort pingPort queryPort name description current_map
                 player_count max_players mods st))
      = (sent st ++ [mkRequest POST (address +:+ "/api/v1/servers") None
                       (Some (JObj body)) None])%list /\
    dict_keys body = ["ports"; "name"; "description"; "current_map";
                      "player_count"; "max_players"; "mods"] /\
    dict_wf body /\
    dict_get "ports" body = Some (JObj ports) /\
    dict_keys ports = ["game"; "ping"; "a2s"] /\
    dict_wf ports /\
    dict_get "game" ports = Some (JInt gamePort) /\
    dict_get "ping" ports = Some (JInt pingPort) /\
    dict_get "a2s" ports = Some (JInt queryPort) /\
    dict_get "name" body = Some (JStr name) /\
    dict_get "description" body = Some (JStr description) /\
    dict_get "current_map" body = Some (JStr current_map) /\
    dict_get "player_count" body = Some (JInt player_count) /\
    dict_get "max_players" body = Some (JInt max_players) /\
    dict_get "mods" body = Some (JArr (deref (heap st) mods)).
Proof.
  eexists _, _. split.
  - open_op. rewrite stateless_apply by auto 20 with stateless. reflexivity.
  - repeat split; try reflexivity; unfold dict_wf;
      apply (bool_decide_unpack _); vm_compute; exact I.
Qed.


(** C9.  [heartbeat] ignores [port]: with two values of it the call makes
    the same request, returns or raises the same, and leaves the same
    state. *)
Theorem heartbeat_ignores_port (address unique_id key : string) (p1 p2 : Z)
    (st : state) :
  heartbeat float_of_str float_repr str_repr backend address unique_id key p1 st
  = heartbeat float_of_str float_repr str_repr backend address unique_id key p2 st.
Proof. reflexivity. Qed.

(** C10.  [registerServer] leaves every list object as it found it, the
    [mods] it was given and the default of [mods] among them, whether it
    returns or raises; and the mods entry of the body it sends is the
    content of that list. *)
Theorem register_keeps_mods (address : string) (gamePort pingPort queryPort : Z)
    (name description current_map : string) (player_count max_players : Z)
    (mods : loc) (st : state) :
  let st' := snd (registerServer float_of_str float_repr str_repr backend address
                    gamePort pingPort queryPort name description current_map
                    player_count max_players mods st) in
  heap st' = heap st /\
  heap st' !! mods = heap st !! mods /\
  heap st' !! registerServer_mods_default = heap st !! registerServer_mods_default /\
  exists req body,
    sent st' = (sent st ++ [req])%list /\
    req_json req = Some (JObj body) /\
    dict_get "mods" body = Some (JArr (deref (heap st) mods)).
Proof.
  intros st'.
  assert (Hst : st' = mkState (heap st) (sent st ++ [request_of
            (Register address gamePort pingPort queryPort name description
               current_map player_count max_players mods) (heap st)])).
  { unfold st'. open_op. by rewrite stateless_apply by auto 20 with stateless. }
  rewrite Hst. simpl. repeat split.
  eexists _, _. repeat split.
Qed.

End Properties.

(** ** The examples of the specification, and where the code departs from it *)

(** C6: the code at the failing input.  On a 404 response whose body is the
    empty object, every call ends with [KeyError] raised by [__buildError],
    not with [RuntimeError]. *)
Theorem missing_error_fields_key_error (float_of_str : string -> option float)
    (float_repr : float -> string) (str_repr : string -> string)
    (c : call) (st : state) :
  fst (perform float_of_str float_repr str_repr (answers 404 (Some (JObj []))) c st)
  = Raised (KeyError "message").
Proof. by rewrite perform_not_ok. Qed.

(** C1 fails as stated: status 300 is neither 2xx nor 5xx and the body is the
    error object of the 404 example, yet [updateServer] raises nothing and
    [getServerList] raises [KeyError]. *)
Lemma no_detailed_error_on_300 :
  ~ (200 <= 300 < 300) /\ ~ (500 <= 300 < 600) /\
  json_result (answers 300 (Some not_found_body)
                 (request_of (Update "http://0.0.0.0:8080" "abc" "k" 3 64 "Lionspire")
                    (heap module_state))) = Some not_found_body /\
  fst (perform example_float_of_str example_float_repr example_str_repr
         (answers 300 (Some not_found_body))
         (Update "http://0.0.0.0:8080" "abc" "k" 3 64 "Lionspire") module_state)
    = Returned Nothing /\
  fst (perform example_float_of_str example_float_repr example_str_repr
         (answers 300 (Some not_found_body))
         (GetServerList "http://0.0.0.0:8080") module_state)
    = Raised (KeyError "servers").
Proof. repeat split; lia. Qed.

(** C5 fails as stated: a 200 response whose body does not decode makes
    [updateServer] and [delete] return, and makes [getServerList] raise the
    decoding error itself. *)
Lemma no_generic_error_on_200 :
  json_result (answers 200 None
                 (request_of (Delete "http://0.0.0.0:8080" "abc" "k")
                    (heap module_state))) = None /\
  fst (perform example_float_of_str example_float_repr example_str_repr
         (answers 200 None)
         (Update "http://0.0.0.0:8080" "abc" "k" 3 64 "Lionspire") module_state)
    = Returned Nothing /\
  fst (perform example_float_of_str example_float_repr example_str_repr
         (answers 200 None)
         (Delete "http://0.0.0.0:8080" "abc" "k") module_state)
    = Returned Nothing /\
  fst (perform example_float_of_str example_float_repr example_str_repr
         (answers 200 None)
         (GetServerList "http://0.0.0.0:8080") module_state)
    = Raised JSONDecodeError.
Proof. repeat split. Qed.


(** C7 fails as stated: called with address, unique_id and key only,
    [heartbeat] raises [TypeError] and sends nothing, although the backend
    would have answered 200 with a refresh deadline. *)
Lemma heartbeat_three_arguments :
  heartbeat_call example_float_of_str example_float_repr example_str_repr
    (answers 200 (Some (refresh_body (JFloat float_123_5))))
    "http://0.0.0.0:8080" "abc" "k" [] module_state
  = (Raised TypeError, module_state).
Proof. reflexivity. Qed.

(** The 404 example: the message holds "404", "not found", "server" and
    "error". *)
Lemma error_message_by_status_witness :
  400 <= 404 < 600 /\
  fst (perform example_float_of_str example_float_repr example_str_repr
         (answers 404 (Some not_found_body))
         (GetServerList "http://0.0.0.0:8080") module_state)
    = Raised (RuntimeError (detailed_message 404 "not found" "server" "error")) /\
  contains (detailed_message 404 "not found" "server" "error") "404" /\
  contains (detailed_message 404 "not found" "server" "error") "not found" /\
  contains (detailed_message 404 "not found" "server" "error") "server" /\
  contains (detailed_message 404 "not found" "server" "error") "error".
Proof.
  split; [lia|].
  apply (proj2 (error_message_by_status example_float_of_str example_float_repr
                  example_str_repr (answers 404 (Some not_found_body))
                  (GetServerList "http://0.0.0.0:8080") module_state
                  (mkResponse 404 (Some not_found_body)) eq_refl
                  ltac:(simpl; lia))
           [("message", JStr "not found"); ("context", JStr "server");
            ("status", JStr "error")]
           (JStr "not found") (JStr "server") (JStr "error")
           eq_refl eq_refl eq_refl eq_refl ltac:(simpl; lia)).
Defined.

(** The 503 example: the message is the fixed text followed by "503". *)
Lemma unparseable_error_witness :
  400 <= 503 < 600 /\
  fst (perform example_float_of_str example_float_repr example_str_repr
         (answers 503 None) (Heartbeat "http://0.0.0.0:8080" "abc" "k" 7777)
         module_state)
    = Raised (RuntimeError "Server error (could not parse response body): 503") /\
  contains "Server error (could not parse response body): 503" "503".
Proof.
  split; [lia|].
  apply (unparseable_error example_float_of_str example_float_repr example_str_repr
           (answers 503 None) (Heartbeat "http://0.0.0.0:8080" "abc" "k" 7777)
           module_state (mkResponse 503 None) eq_refl ltac:(simpl; lia) eq_refl).
Defined.

(** The round-trip example of [registerServer]. *)
Lemma register_returns_triple_witness :
  200 <= 200 < 300 /\
  fst (registerServer_defaults example_float_of_str example_float_repr
         example_str_repr (answers 200 (Some registration_body))
         "http://0.0.0.0:8080" module_state)
    = Returned (JStr "abc", JStr "k", float_123_5).
Proof.
  split; [lia|].
  apply (register_returns_triple example_float_of_str example_float_repr
           example_str_repr (answers 200 (Some registration_body))
           "http://0.0.0.0:8080" 7777 3075 7071 "Chivalry 2 Server" "No description"
           "Unknown" (-1) (-1) registerServer_mods_default module_state
           (mkResponse 200 (Some registration_body))
           [("server", JObj [("unique_id", JStr "abc")]); ("key", JStr "k");
            ("refresh_before", JFloat float_123_5)]
           [("unique_id", JStr "abc")] (JStr "abc") (JStr "k") (JFloat float_123_5)
           eq_refl ltac:(simpl; lia) eq_refl eq_refl eq_refl eq_refl eq_refl).
Defined.

(** The example of [getServerList]: one record, equal to the one sent. *)
Lemma server_list_unmodified_witness :
  200 <= 200 < 300 /\
  fst (getServerList example_float_repr example_str_repr
         (answers 200 (Some server_list_body)) "http://0.0.0.0:8080" module_state)
    = Returned (JArr [JObj [("unique_id", JStr "x")]]).
Proof.
  split; [lia|].
  apply (server_list_unmodified example_float_repr example_str_repr
           (answers 200 (Some server_list_body)) "http://0.0.0.0:8080" module_state
           (mkResponse 200 (Some server_list_body))
           [("servers", JArr [JObj [("unique_id", JStr "x")]])]
           (JArr [JObj [("unique_id", JStr "x")]])
           eq_refl ltac:(simpl; lia) eq_refl eq_refl).
Defined.

(** [heartbeat] on a fractional and on an integer deadline. *)
Lemma heartbeat_contract_witness :
  fst (heartbeat example_float_of_str example_float_repr example_str_repr
         (answers 200 (Some (refresh_body (JFloat float_123_5))))
         "http://0.0.0.0:8080" "abc" "k" 7777 module_state)
    = Returned float_123_5 /\
  fst (heartbeat example_float_of_str example_float_repr example_str_repr
         (answers 200 (Some (refresh_body (JInt 123))))
         "http://0.0.0.0:8080" "abc" "k" 7777 module_state)
    = Returned (binary_normalize float_prec float_emax 123 0 false).
Proof.
  split.
  - apply (proj1 (proj2 (proj2 (heartbeat_contract example_float_of_str
             example_float_repr example_str_repr
             (answers 200 (Some (refresh_body (JFloat float_123_5))))
             "http://0.0.0.0:8080" "abc" "k" 7777 module_state)))
           [("refresh_before", JFloat float_123_5)] (JFloat float_123_5)
           ltac:(simpl; lia) eq_refl eq_refl).
  - apply (proj1 (proj2 (proj2 (heartbeat_contract example_float_of_str
             example_float_repr example_str_repr
             (answers 200 (Some (refresh_body (JInt 123))))
             "http://0.0.0.0:8080" "abc" "k" 7777 module_state)))
           [("refresh_before", JInt 123)] (JInt 123)
           ltac:(simpl; lia) eq_refl eq_refl).
Defined.


(** The default of [mods] is one list object shared by all calls: two calls
    in a row that omit [mods] both send an empty list and leave it empty. *)
Example default_mods_stays_empty :
  let backend := answers 200 (Some registration_body) in
  let st1 := snd (registerServer_defaults example_float_of_str example_float_repr
                    example_str_repr backend "http://0.0.0.0:8080" module_state) in
  let st2 := snd (registerServer_defaults example_float_of_str example_float_repr
                    example_str_repr backend "http://0.0.0.0:8080" st1) in
  heap st2 = heap module_state /\
  (fun req => req_json req ≫= fun body =>
     match body with JObj m => dict_get "mods" m | _ => None end) <$> sent st2
  = [Some (JArr []); Some (JArr [])].
Proof. split; reflexivity. Qed.

(** ** Further properties of the module *)

(** *** Integers that convert to a float without rounding *)

Lemma digits2_pos_iter_xO (p k : positive) :
  Z.pos (digits2_pos (Pos.iter xO p k)) = Z.pos (digits2_pos p) + Z.pos k.
Proof.
  induction k as [|k IH] using Pos.peano_ind.
  - simpl. lia.
  - rewrite Pos.iter_succ. simpl. lia.
Qed.

Lemma iter_xO_value (p k : positive) :
  Z.pos (Pos.iter xO p k) = Z.pos p * 2 ^ Z.pos k.
Proof.
  induction k as [|k IH] using Pos.peano_ind.
  - simpl. lia.
  - rewrite Pos.iter_succ, Pos2Z.inj_xO, IH, Pos2Z.inj_succ, Z.pow_succ_r by lia. lia.
Qed.

Lemma digits2_pos_bound (p : positive) :
  2 ^ (Z.pos (digits2_pos p) - 1) <= Z.pos p < 2 ^ Z.pos (digits2_pos p).
Proof.
  induction p as [p IH|p IH|]; simpl digits2_pos; [| |simpl; lia];
    rewrite Pos2Z.inj_succ;
    replace (Z.succ (Z.pos (digits2_pos p)) - 1)
      with (Z.succ (Z.pos (digits2_pos p) - 1)) by lia;
    rewrite !Z.pow_succ_r by lia;
    generalize dependent (2 ^ (Z.pos (digits2_pos p) - 1));
    generalize dependent (2 ^ Z.pos (digits2_pos p)); intros; lia.
Qed.

(** A mantissa that already has its canonical exponent goes through the
    rounding unchanged. *)
Lemma binary_round_aux_canonical (sx : bool) (m : positive) (e : Z) :
  fexp float_prec float_emax (Z.pos (digits2_pos m) + e) = e ->
  e <= 971 ->
  binary_round_aux float_prec float_emax sx (Z.pos m) e loc_Exact = S754_finite sx m e.
Proof.
  intros Hc He.
  unfold binary_round_aux, shr_fexp, Zdigits2. rewrite Hc, Z.sub_diag.
  cbv [shr shr_record_of_loc shr_m loc_of_shr_record round_nearest_even].
  rewrite Hc, Z.sub_diag.
  destruct (Z.leb_spec e (float_emax - float_prec)); [reflexivity|].
  unfold float_emax, float_prec in *. lia.
Qed.

Lemma binary_round_exact (sx : bool) (p : positive) :
  Z.pos p < 2 ^ 53 ->
  exists m e, binary_round float_prec float_emax sx p 0 = S754_finite sx m e /\
              -52 <= e <= 0 /\ Z.pos m = Z.pos p * 2 ^ (- e).
Proof.
  intros Hp.
  pose proof (digits2_pos_bound p) as Hd.
  assert (Hd53 : Z.pos (digits2_pos p) <= 53).
  { destruct (Z.le_gt_cases (Z.pos (digits2_pos p)) 53) as [|Hgt]; [done|].
    assert (2 ^ 53 <= 2 ^ (Z.pos (digits2_pos p) - 1)) by (apply Z.pow_le_mono_r; lia).
    lia. }
  unfold binary_round, shl_align.
  assert (Hf : fexp float_prec float_emax (Z.pos (digits2_pos p) + 0)
               = Z.pos (digits2_pos p) - 53)
    by (unfold fexp, emin, float_prec, float_emax; lia).
  rewrite Hf, Z.sub_0_r.
  destruct (Z.pos (digits2_pos p) - 53) as [|q|k] eqn:Hk; [|lia|].
  - exists p, 0. split; [|split; [lia|simpl; lia]].
    apply binary_round_aux_canonical; [|lia]. by rewrite Hf.
  - exists (Pos.iter xO p k), (Z.neg k).
    pose proof (digits2_pos_iter_xO p k) as Hdk.
    split; [|split; [lia|]].
    + apply binary_round_aux_canonical; [|lia].
      unfold fexp, emin, float_prec, float_emax. lia.
    + rewrite iter_xO_value. reflexivity.
Qed.

Lemma float_of_int_exact (n : Z) :
  Z.abs n < 2 ^ 53 ->
  exists f, float_of_int n = Returned f /\ float_denotes f n.
Proof.
  intros Hn. unfold float_of_int, binary_normalize.
  destruct n as [|p|p].
  - by exists (S754_zero false).
  - destruct (binary_round_exact false p) as (m & e & -> & He & Hm); [done|].
    exists (S754_finite false m e). split; [done|]. split; [done|].
    rewrite Hm. replace (Z.max e 0) with 0 by lia.
    replace (Z.max (- e) 0) with (- e) by lia. simpl Z.abs. lia.
  - destruct (binary_round_exact true p) as (m & e & -> & He & Hm); [done|].
    exists (S754_finite true m e). split; [done|]. split; [done|].
    rewrite Hm. replace (Z.max e 0) with 0 by lia.
    replace (Z.max (- e) 0) with (- e) by lia. simpl Z.abs. lia.
Qed.

Section Further.

Variable float_of_str : string -> option float.
Variable float_repr : float -> string.
Variable str_repr : string -> string.
Variable backend : Request -> Response.

#[local] Abbreviation checkResponse A := (@__checkResponse float_repr str_repr A).
#[local] Abbreviation run := (perform float_of_str float_repr str_repr backend).
#[local] Abbreviation str := (py_str float_repr str_repr).

Ltac open_call c :=
  destruct c; unfold perform, registerServer, updateServer, delete, heartbeat,
    getServerList, requests_get, requests_post, requests_put, requests_delete;
  rewrite bind_assoc, bind_request; cbv beta zeta;
  cbn [fmap option_fmap option_map encode map fst snd].

Ltac open_op :=
  unfold registerServer, updateServer, delete, heartbeat, getServerList,
    requests_get, requests_post, requests_put, requests_delete;
  rewrite bind_request; cbv beta zeta;
  cbn [fmap option_fmap option_map encode map fst snd].

Ltac step_outcome :=
  unfold Response_json, bind, ret, lift, raise, py_getitem; simpl.

(** X1.  Whether it then returns or raises, a call calls [requests] exactly
    once, with the method, URL, headers and body of its row in the interface
    table, and leaves the store of list objects as it was: the module never
    retries and never makes a second call after an error.  How many HTTP
    requests [requests] makes of that call is not part of the statement. *)
Theorem one_request_per_call (c : call) (st : state) :
  heap (snd (run c st)) = heap st /\
  sent (snd (run c st)) = (sent st ++ [request_of c (heap st)])%list.
Proof. by rewrite perform_state. Qed.

(** How [__checkResponse] ends: always with an exception, which is a
    [RuntimeError] or one of those of [__buildError]. *)
Lemma checkResponse_classes {A} (r : Response) (st : state) :
  exists e, checkResponse A r st = (Raised e, st) /\
            ((exists msg, e = RuntimeError msg) \/ build_error_exn e).
Proof.
  unfold __checkResponse, __buildError, py_getitem, build_error_exn, bind, lift, raise.
  destruct (json_result r) as [parsed|]; [|by eauto 6].
  destruct (negb _); [|by eauto 6].
  destruct parsed; simpl; try by eauto 8.
  repeat (match goal with |- context [dict_get ?k ?m] => destruct (dict_get k m) end;
          simpl; try by eauto 8).
Qed.

(** X2.  On a response that is not ok, no call returns a value: it raises,
    and what it raises is a [RuntimeError], a [TypeError] or a [KeyError]
    for message, context or status; never the decoding error of the body. *)
Theorem not_ok_always_raises (c : call) (st : state) :
  400 <= status_code (backend (request_of c (heap st))) < 600 ->
  exists e, fst (run c st) = Raised e /\
            ((exists msg, e = RuntimeError msg) \/ build_error_exn e).
Proof.
  intros Hcode%ok_false_iff. rewrite (perform_not_ok _ _ _ _ _ _ Hcode).
  destruct (checkResponse_classes (A:=result)
              (backend (request_of c (heap st))) (after_request c st))
    as (e & -> & He).
  by exists e.
Qed.

(** X3.  On a 4xx response whose body decodes to an object, the keys are
    read in the order message, context, status, and the first one that is
    missing is the one the [KeyError] names. *)
Theorem first_missing_error_field (c : call) (st : state) (r : Response)
    (m : list (string * json)) :
  backend (request_of c (heap st)) = r ->
  400 <= status_code r < 500 ->
  json_result r = Some (JObj m) ->
  (dict_get "message" m = None ->
     fst (run c st) = Raised (KeyError "message")) /\
  (dict_get "message" m <> None -> dict_get "context" m = None ->
     fst (run c st) = Raised (KeyError "context")) /\
  (dict_get "message" m <> None -> dict_get "context" m <> None ->
   dict_get "status" m = None ->
     fst (run c st) = Raised (KeyError "status")).
Proof.
  intros Hr Hcode Hj.
  assert (Hok : ok (backend (request_of c (heap st))) = false)
    by (rewrite Hr; apply ok_false_iff; lia).
  rewrite (perform_not_ok _ _ _ _ _ _ Hok), Hr.
  unfold __checkResponse. rewrite Hj.
  assert ((500 <=? status_code r) && (status_code r <? 600) = false) as ->
    by (apply andb_false_iff; rewrite Z.leb_gt; lia).
  unfold __buildError, py_getitem, bind, lift, raise; simpl.
  repeat split.
  - by intros ->.
  - intros Hm ->. by destruct (dict_get "message" m).
  - intros Hm Hc ->. by destruct (dict_get "message" m), (dict_get "context" m).
Qed.

(** X4.  On a 4xx response whose body decodes to something that is not an
    object (a list, a string, a number, a boolean, null), every call raises
    [TypeError]. *)
Theorem non_object_error_body (c : call) (st : state) (r : Response) (parsed : json) :
  backend (request_of c (heap st)) = r ->
  400 <= status_code r < 500 ->
  json_result r = Some parsed ->
  (forall m, parsed <> JObj m) ->
  fst (run c st) = Raised TypeError.
Proof.
  intros Hr Hcode Hj Hno.
  assert (Hok : ok (backend (request_of c (heap st))) = false)
    by (rewrite Hr; apply ok_false_iff; lia).
  rewrite (perform_not_ok _ _ _ _ _ _ Hok), Hr.
  unfold __checkResponse. rewrite Hj.
  assert ((500 <=? status_code r) && (status_code r <? 600) = false) as ->
    by (apply andb_false_iff; rewrite Z.leb_gt; lia).
  destruct parsed; try reflexivity. by destruct (Hno m).
Qed.

(** X5.  [updateServer] and [delete] return exactly when the status code is
    outside [400, 600); the body of the response plays no part, decodable
    or not. *)
Theorem update_delete_return_iff_ok (address unique_id key : string)
    (player_count max_players : Z) (current_map : string) (st : state) :
  (fst (updateServer float_repr str_repr backend address unique_id key player_count
          max_players current_map st) = Returned tt
   <-> ~ (400 <= status_code (backend (request_of
             (Update address unique_id key player_count max_players current_map)
             (heap st))) < 600)) /\
  (fst (delete float_repr str_repr backend address unique_id key st) = Returned tt
   <-> ~ (400 <= status_code (backend (request_of
             (Delete address unique_id key) (heap st))) < 600)).
Proof.
  split; rewrite <- ok_true_iff; unfold request_of, key_header; open_op;
    match goal with |- context [ok ?r] => destruct (ok r) eqn:Hok end; simpl.
  - done.
  - split; [|done]. intros H. exfalso. revert H.
    match goal with |- context [__checkResponse _ _ ?r ?s] =>
      destruct (checkResponse_raises float_repr str_repr (A:=unit) r s) as [e ->] end.
    done.
  - done.
  - split; [|done]. intros H. exfalso. revert H.
    match goal with |- context [__checkResponse _ _ ?r ?s] =>
      destruct (checkResponse_raises float_repr str_repr (A:=unit) r s) as [e ->] end.
    done.
Qed.

(** X6.  [getServerList] returns a value [v] exactly when the status code is
    outside [400, 600) and the body decodes to an object that holds [v]
    under servers. *)
Theorem server_list_returns_iff (address : string) (st : state) (v : json) :
  let r := backend (request_of (GetServerList address) (heap st)) in
  fst (getServerList float_repr str_repr backend address st) = Returned v
  <-> ~ (400 <= status_code r < 600) /\
      exists m, json_result r = Some (JObj m) /\ dict_get "servers" m = Some v.
Proof.
  intros r. rewrite <- ok_true_iff. unfold r, request_of. open_op.
  match goal with |- context [ok ?r] => set (r' := r); destruct (ok r') eqn:Hok end;
    simpl.
  - step_outcome. split.
    + intros H. split; [done|].
      destruct (json_result r') as [[| | | | |l|m]|]; simpl in H; try done.
      exists m. split; [done|]. destruct (dict_get "servers" m); simpl in H; congruence.
    + intros [_ (m & -> & Hs)]. simpl. by rewrite Hs.
  - split; [|by intros [? _]]. intros H. exfalso. revert H.
    destruct (checkResponse_raises float_repr str_repr (A:=json) r'
                (mkState (heap st) (sent st ++ [mkRequest GET
                   (address +:+ "/api/v1/servers") None None None]))) as [e ->].
    done.
Qed.

(** X7.  [heartbeat] returns a float [f] exactly when the status code is
    outside [400, 600), the body decodes to an object that holds some [rb]
    under refresh_before, and [float(rb)] is [f]. *)
Theorem heartbeat_returns_iff (address unique_id key : string) (port : Z)
    (st : state) (f : float) :
  let r := backend (request_of (Heartbeat address unique_id key port) (heap st)) in
  fst (heartbeat float_of_str float_repr str_repr backend address unique_id key port st)
    = Returned f
  <-> ~ (400 <= status_code r < 600) /\
      exists m rb, json_result r = Some (JObj m) /\
                   dict_get "refresh_before" m = Some rb /\
                   py_float float_of_str rb = Returned f.
Proof.
  intros r. rewrite <- ok_true_iff. unfold r, request_of, key_header. open_op.
  match goal with |- context [ok ?r] => set (r' := r); destruct (ok r') eqn:Hok end;
    simpl.
  - step_outcome. split.
    + intros H. split; [done|].
      destruct (json_result r') as [[| | | | |l|m]|]; simpl in H; try done.
      destruct (dict_get "refresh_before" m) as [rb|] eqn:Hrb; simpl in H; [|done].
      by exists m, rb.
    + intros [_ (m & rb & -> & Hrb & Hf)]. simpl. by rewrite Hrb.
  - split; [|by intros [? _]]. intros H. exfalso. revert H.
    match goal with |- context [__checkResponse _ _ ?r ?s] =>
      destruct (checkResponse_raises float_repr str_repr (A:=float) r s) as [e ->] end.
    done.
Qed.

(** X8.  [registerServer] returns a triple [(u, k, f)] exactly when the
    status code is outside [400, 600) and the body decodes to an object
    whose server entry is an object holding [u] under unique_id, which holds
    [k] under key, and which holds under refresh_before some [rb] with
    [float(rb) = f]. *)
Theorem register_returns_iff (address : string) (gamePort pingPort queryPort : Z)
    (name description current_map : string) (player_count max_players : Z)
    (mods : loc) (st : state) (u k : json) (f : float) :
  let r := backend (request_of (Register address gamePort pingPort queryPort name
                                  description current_map player_count max_players
                                  mods) (heap st)) in
  fst (registerServer float_of_str float_repr str_repr backend address gamePort
         pingPort queryPort name description current_map player_count max_players
         mods st) = Returned (u, k, f)
  <-> ~ (400 <= status_code r < 600) /\
      exists m srv rb,
        json_result r = Some (JObj m) /\
        dict_get "server" m = Some (JObj srv) /\
        dict_get "unique_id" srv = Some u /\
        dict_get "key" m = Some k /\
        dict_get "refresh_before" m = Some rb /\
        py_float float_of_str rb = Returned f.
Proof.
  intros r. rewrite <- ok_true_iff. unfold r, request_of. open_op.
  match goal with |- context [ok ?r] => set (r' := r); destruct (ok r') eqn:Hok end;
    simpl.
  - step_outcome. split.
    + intros H. split; [done|].
      destruct (json_result r') as [[| | | | |l|m]|]; simpl in H; try done.
      destruct (dict_get "server" m) as [[| | | | |l|srv]|] eqn:Hsrv;
        simpl in H; try done.
      destruct (dict_get "unique_id" srv) as [u'|] eqn:Hu; simpl in H; [|done].
      destruct (dict_get "key" m) as [k'|] eqn:Hk; simpl in H; [|done].
      destruct (dict_get "refresh_before" m) as [rb|] eqn:Hrb; simpl in H; [|done].
      destruct (py_float float_of_str rb) as [f'|] eqn:Hf; simpl in H; [|done].
      exists m, srv, rb. by simplify_eq.
    + intros [_ (m & srv & rb & -> & Hsrv & Hu & Hk & Hrb & Hf)]. simpl.
      rewrite Hsrv; simpl. rewrite Hu; simpl. rewrite Hk; simpl.
      rewrite Hrb; simpl. by rewrite Hf.
  - split; [|by intros [? _]]. intros H. exfalso. revert H.
    match goal with |- context [__checkResponse _ _ ?r ?s] =>
      destruct (checkResponse_raises float_repr str_repr (A:=json * json * float) r s)
        as [e ->] end.
    done.
Qed.

(** X9.  When [registerServer] gets a successful response whose body is an
    object, the fields are read in the order server, unique_id, key,
    refresh_before, and the first one that is missing is the one the
    [KeyError] names; a server entry that is not an object gives
    [TypeError]. *)
Theorem register_incomplete_body (address : string) (gamePort pingPort queryPort : Z)
    (name description current_map : string) (player_count max_players : Z)
    (mods : loc) (st : state) (r : Response) (m : list (string * json)) :
  backend (request_of (Register address gamePort pingPort queryPort name description
                         current_map player_count max_players mods) (heap st)) = r ->
  ~ (400 <= status_code r < 600) ->
  json_result r = Some (JObj m) ->
  let out := fst (registerServer float_of_str float_repr str_repr backend address
                    gamePort pingPort queryPort name description current_map
                    player_count max_players mods st) in
  (dict_get "server" m = None -> out = Raised (KeyError "server")) /\
  (forall v, dict_get "server" m = Some v -> (forall srv, v <> JObj srv) ->
             out = Raised TypeError) /\
  (forall srv, dict_get "server" m = Some (JObj srv) ->
     (dict_get "unique_id" srv = None -> out = Raised (KeyError "unique_id")) /\
     (dict_get "unique_id" srv <> None -> dict_get "key" m = None ->
        out = Raised (KeyError "key")) /\
     (dict_get "unique_id" srv <> None -> dict_get "key" m <> None ->
      dict_get "refresh_before" m = None ->
        out = Raised (KeyError "refresh_before"))).
Proof.
  intros Hr Hcode%ok_true_iff Hj out. unfold out, request_of in *. open_op.
  rewrite Hr, Hcode. step_outcome. rewrite Hj; simpl. repeat split.
  - by intros ->.
  - intros v -> Hno. destruct v as [| | | | | |srv]; try done. by destruct (Hno srv).
  - match goal with H : dict_get "server" m = _ |- _ => rewrite H end; simpl.
    by intros ->.
  - match goal with H : dict_get "server" m = _ |- _ => rewrite H end; simpl.
    intros Hu ->. by destruct (dict_get "unique_id" srv).
  - match goal with H : dict_get "server" m = _ |- _ => rewrite H end; simpl.
    intros Hu Hk ->.
    by destruct (dict_get "unique_id" srv), (dict_get "key" m).
Qed.

(** X10.  The three calls that decode a successful response do not return
    when [json()] fails on the body: they raise; and they raise [TypeError]
    when the body decodes to something that is not an object. *)
Theorem undecodable_success_body (c : call) (st : state) (r : Response) :
  decodes_body c = true ->
  backend (request_of c (heap st)) = r ->
  ~ (400 <= status_code r < 600) ->
  (json_result r = None -> exists e, fst (run c st) = Raised e) /\
  (forall parsed, json_result r = Some parsed -> (forall m, parsed <> JObj m) ->
                  fst (run c st) = Raised TypeError).
Proof.
  intros Hc Hr Hcode%ok_true_iff.
  destruct c; try discriminate Hc; unfold request_of, key_header in Hr;
    unfold perform, registerServer, heartbeat, getServerList, requests_get,
      requests_post;
    rewrite bind_assoc, bind_request; cbv beta zeta;
    cbn [fmap option_fmap option_map encode map fst snd];
    rewrite Hr, Hcode; step_outcome;
    (split; [intros ->; by eexists
            | intros parsed -> Hno; destruct parsed; try done;
              by destruct (Hno m)]).
Qed.

(** *** What the text of an error tells *)

Lemma buildError_prefix (code : Z) (parsed : json) (msg : string) :
  __buildError float_repr str_repr code parsed = Returned msg ->
  exists rest, msg = "Server could not be updated: error " +:+ rest.
Proof.
  clear float_of_str backend.
  unfold __buildError, py_getitem. destruct parsed; try done; simpl.
  repeat (match goal with |- context [dict_get ?k ?m] => destruct (dict_get k m) end;
          simpl; try done).
  intros [= <-]. by eexists.
Qed.

Lemma buildError_raises (code : Z) (parsed : json) (e : exn) :
  __buildError float_repr str_repr code parsed = Raised e -> build_error_exn e.
Proof.
  clear float_of_str backend.
  unfold __buildError, py_getitem, build_error_exn.
  destruct parsed; simpl; try (intros [= <-]; tauto).
  repeat (match goal with |- context [dict_get ?k ?m] => destruct (dict_get k m) end;
          simpl; try (intros [= <-]; tauto)).
Qed.

Ltac differ H := cbv [String.append] in H; discriminate H.

Ltac not_runtime Hb :=
  let H := fresh in
  intros H; apply buildError_raises in Hb;
  destruct Hb as [->|[->|[->| ->]]]; discriminate H.

(** X11.  The text of the error tells the cases of [__checkResponse] apart.
    If two responses end in the same exception, then either both bodies
    failed to decode or neither did; and when the first failed to decode,
    or has a status in [500, 600) with a body that decodes, both have the
    same status code. *)
Theorem error_text_tells_case {A} (r1 r2 : Response) (st1 st2 : state) :
  fst (checkResponse A r1 st1) = fst (checkResponse A r2 st2) ->
  (json_result r1 = None <-> json_result r2 = None) /\
  (json_result r1 = None \/ 500 <= status_code r1 < 600 ->
   status_code r1 = status_code r2).
Proof.
  clear float_of_str backend.
  unfold __checkResponse, bind, lift, raise.
  destruct (json_result r1) as [p1|], (json_result r2) as [p2|].
  - destruct ((500 <=? status_code r1) && (status_code r1 <? 600)) eqn:H1,
             ((500 <=? status_code r2) && (status_code r2 <? 600)) eqn:H2; simpl.
    + intros [= H]. split; [done|]. intros _.
      apply pretty_Z_inj. exact H.
    + destruct (__buildError _ _ _ p2) as [msg|e] eqn:Hb; simpl; [|not_runtime Hb].
      intros [= H]. apply buildError_prefix in Hb as [rest ->]. differ H.
    + intros H. split; [done|]. intros [?|Hc]; [done|].
      apply andb_false_iff in H1. rewrite Z.leb_gt, Z.ltb_ge in H1. lia.
    + intros H. split; [done|]. intros [?|Hc]; [done|].
      apply andb_false_iff in H1. rewrite Z.leb_gt, Z.ltb_ge in H1. lia.
  - destruct (negb _); simpl.
    + destruct (__buildError _ _ _ p1) as [msg|e] eqn:Hb; simpl; [|not_runtime Hb].
      intros [= H]. apply buildError_prefix in Hb as [rest ->]. differ H.
    + by intros [=].
  - destruct (negb _); simpl.
    + destruct (__buildError _ _ _ p2) as [msg|e] eqn:Hb; simpl; [|not_runtime Hb].
      intros [= H]. apply buildError_prefix in Hb as [rest ->]. differ H.
    + by intros [=].
  - simpl. intros [= H]. split; [done|]. intros _.
    apply pretty_Z_inj. exact H.
Qed.

(** X12.  [__buildError] pastes the fields in as they are, so the text does
    not determine them: a line that reads like the context line can stand at
    the end of the message or at the start of the context, and the two
    bodies, whose message fields differ, give the same text. *)
Theorem detailed_text_ambiguous (code : Z) (a b c : string) (status : json) :
  __buildError float_repr str_repr code
    (JObj [("message", JStr (a +:+ nl +:+ "Context: " +:+ b));
           ("context", JStr c); ("status", status)])
  = __buildError float_repr str_repr code
      (JObj [("message", JStr a);
             ("context", JStr (b +:+ nl +:+ "Context: " +:+ c));
             ("status", status)]) /\
  a +:+ nl +:+ "Context: " +:+ b <> a.
Proof.
  split.
  - unfold __buildError; simpl. do 6 f_equal.
    by rewrite <- !string_app_assoc.
  - intros H. rewrite <- (string_app_nil_r a) in H at 2.
    apply (String.app_inj a) in H. differ H.
Qed.

(** X13.  An integer deadline below 2^53 in absolute value comes back from
    [heartbeat] as the float that is this integer: the conversion rounds
    nothing away, so Unix timestamps sent as JSON integers are returned
    exactly. *)
Theorem integer_deadline_exact (address unique_id key : string) (port : Z)
    (st : state) (r : Response) (m : list (string * json)) (n : Z) :
  backend (request_of (Heartbeat address unique_id key port) (heap st)) = r ->
  ~ (400 <= status_code r < 600) ->
  json_result r = Some (JObj m) ->
  dict_get "refresh_before" m = Some (JInt n) ->
  Z.abs n < 2 ^ 53 ->
  exists f,
    fst (heartbeat float_of_str float_repr str_repr backend address unique_id key
           port st) = Returned f /\
    float_denotes f n.
Proof.
  intros Hr Hcode%ok_true_iff Hj Hrb Hn.
  destruct (float_of_int_exact n Hn) as (f & Hf & Hd).
  exists f. split; [|done].
  unfold request_of, key_header in Hr. open_op. rewrite Hr, Hcode.
  step_outcome. rewrite Hj; simpl. rewrite Hrb; simpl. by rewrite Hf.
Qed.

(** X14.  When [heartbeat] gets a successful response whose body is an
    object: without refresh_before it raises [KeyError] for that key; with
    a refresh_before that is null, a list or an object it raises
    [TypeError]; with one that is a string Python's [float] rejects it
    raises [ValueError]. *)
Theorem heartbeat_bad_deadline (address unique_id key : string) (port : Z)
    (st : state) (r : Response) (m : list (string * json)) :
  backend (request_of (Heartbeat address unique_id key port) (heap st)) = r ->
  ~ (400 <= status_code r < 600) ->
  json_result r = Some (JObj m) ->
  let out := fst (heartbeat float_of_str float_repr str_repr backend address
                    unique_id key port st) in
  (dict_get "refresh_before" m = None -> out = Raised (KeyError "refresh_before")) /\
  (forall rb, dict_get "refresh_before" m = Some rb ->
              rb = JNull \/ (exists l, rb = JArr l) \/ (exists o, rb = JObj o) ->
              out = Raised TypeError) /\
  (forall s, dict_get "refresh_before" m = Some (JStr s) -> float_of_str s = None ->
             out = Raised ValueError).
Proof.
  intros Hr Hcode%ok_true_iff Hj out. unfold out, request_of, key_header in *.
  open_op. rewrite Hr, Hcode. step_outcome. rewrite Hj; simpl. repeat split.
  - by intros ->.
  - intros rb -> [->|[[l ->]|[o ->]]]; done.
  - intros s -> Hs. simpl. by rewrite Hs.
Qed.

End Further.

(** *** The further properties on concrete answers *)

Lemma not_ok_always_raises_witness :
  exists e,
    fst (perform example_float_of_str example_float_repr example_str_repr
           (answers 404 (Some (JObj []))) (Delete "http://0.0.0.0:8080" "abc" "k")
           module_state) = Raised e /\
    ((exists msg, e = RuntimeError msg) \/ build_error_exn e).
Proof.
  apply (not_ok_always_raises example_float_of_str example_float_repr
           example_str_repr (answers 404 (Some (JObj [])))
           (Delete "http://0.0.0.0:8080" "abc" "k") module_state).
  simpl. lia.
Defined.

Lemma first_missing_error_field_witness :
  fst (perform example_float_of_str example_float_repr example_str_repr
         (answers 403 (Some (JObj [("message", JStr "forbidden")])))
         (Delete "http://0.0.0.0:8080" "abc" "k") module_state)
  = Raised (KeyError "context").
Proof.
  apply (proj1 (proj2 (first_missing_error_field example_float_of_str
           example_float_repr example_str_repr
           (answers 403 (Some (JObj [("message", JStr "forbidden")])))
           (Delete "http://0.0.0.0:8080" "abc" "k") module_state
           (mkResponse 403 (Some (JObj [("message", JStr "forbidden")])))
           [("message", JStr "forbidden")] eq_refl ltac:(simpl; lia) eq_refl)));
    [discriminate | reflexivity].
Defined.

Lemma non_object_error_body_witness :
  fst (perform example_float_of_str example_float_repr example_str_repr
         (answers 400 (Some (JArr []))) (GetServerList "http://0.0.0.0:8080")
         module_state)
  = Raised TypeError.
Proof.
  apply (non_object_error_body example_float_of_str example_float_repr
           example_str_repr (answers 400 (Some (JArr [])))
           (GetServerList "http://0.0.0.0:8080") module_state
           (mkResponse 400 (Some (JArr []))) (JArr []) eq_refl
           ltac:(simpl; lia) eq_refl);
    discriminate.
Defined.

Lemma register_incomplete_body_witness :
  fst (registerServer_defaults example_float_of_str example_float_repr
         example_str_repr
         (answers 201 (Some (JObj [("server", JObj []); ("key", JStr "k")])))
         "http://0.0.0.0:8080" module_state)
  = Raised (KeyError "unique_id").
Proof.
  apply (proj1 (proj2 (proj2 (register_incomplete_body example_float_of_str
           example_float_repr example_str_repr
           (answers 201 (Some (JObj [("server", JObj []); ("key", JStr "k")])))
           "http://0.0.0.0:8080" 7777 3075 7071 "Chivalry 2 Server" "No description"
           "Unknown" (-1) (-1) registerServer_mods_default module_state
           (mkResponse 201 (Some (JObj [("server", JObj []); ("key", JStr "k")])))
           [("server", JObj []); ("key", JStr "k")] eq_refl
           ltac:(simpl; lia) eq_refl)) [] eq_refl)).
  reflexivity.
Defined.

Lemma undecodable_success_body_witness :
  ~ (400 <= 200 < 600) /\
  fst (perform example_float_of_str example_float_repr example_str_repr
         (answers 200 (Some (JArr []))) (GetServerList "http://0.0.0.0:8080")
         module_state)
  = Raised TypeError.
Proof.
  split; [lia|].
  apply (proj2 (undecodable_success_body example_float_of_str example_float_repr
           example_str_repr (answers 200 (Some (JArr [])))
           (GetServerList "http://0.0.0.0:8080") module_state
           (mkResponse 200 (Some (JArr []))) eq_refl eq_refl ltac:(simpl; lia))
           (JArr []) eq_refl).
  discriminate.
Defined.

(** Two different 502 responses, one with the error object and one with an
    empty list, end in the same exception; both bodies decode and the status
    codes agree. *)
Lemma error_text_tells_case_witness :
  mkResponse 502 (Some not_found_body) <> mkResponse 502 (Some (JArr [])) /\
  fst (@__checkResponse example_float_repr example_str_repr unit
         (mkResponse 502 (Some not_found_body)) module_state)
  = fst (@__checkResponse example_float_repr example_str_repr unit
           (mkResponse 502 (Some (JArr []))) module_state) /\
  (json_result (mkResponse 502 (Some not_found_body)) = None <->
   json_result (mkResponse 502 (Some (JArr []))) = None) /\
  (json_result (mkResponse 502 (Some not_found_body)) = None \/
   500 <= status_code (mkResponse 502 (Some not_found_body)) < 600 ->
   status_code (mkResponse 502 (Some not_found_body))
   = status_code (mkResponse 502 (Some (JArr [])))).
Proof.
  split; [discriminate|]. split; [reflexivity|].
  apply (error_text_tells_case example_float_repr example_str_repr (A:=unit)
           (mkResponse 502 (Some not_found_body)) (mkResponse 502 (Some (JArr [])))
           module_state module_state eq_refl).
Defined.

Lemma integer_deadline_exact_witness :
  Z.abs 1700000000 < 2 ^ 53 /\
  exists f,
    fst (heartbeat example_float_of_str example_float_repr example_str_repr
           (answers 200 (Some (refresh_body (JInt 1700000000))))
           "http://0.0.0.0:8080" "abc" "k" 7777 module_state) = Returned f /\
    float_denotes f 1700000000.
Proof.
  split; [reflexivity|].
  apply (integer_deadline_exact example_float_of_str example_float_repr
           example_str_repr (answers 200 (Some (refresh_body (JInt 1700000000))))
           "http://0.0.0.0:8080" "abc" "k" 7777 module_state
           (mkResponse 200 (Some (refresh_body (JInt 1700000000))))
           [("refresh_before", JInt 1700000000)] 1700000000
           eq_refl ltac:(simpl; lia) eq_refl eq_refl eq_refl).
Defined.

Lemma heartbeat_bad_deadline_witness :
  fst (heartbeat example_float_of_str example_float_repr example_str_repr
         (answers 200 (Some (refresh_body JNull)))
         "http://0.0.0.0:8080" "abc" "k" 7777 module_state)
  = Raised TypeError.
Proof.
  apply (proj1 (proj2 (heartbeat_bad_deadline example_float_of_str example_float_repr
           example_str_repr (answers 200 (Some (refresh_body JNull)))
           "http://0.0.0.0:8080" "abc" "k" 7777 module_state
           (mkResponse 200 (Some (refresh_body JNull)))
           [("refresh_before", JNull)] eq_refl ltac:(simpl; lia) eq_refl))
           JNull eq_refl (or_introl eq_refl)).
Defined.
